(** * GOHMoney: accounts, nullable times and balance consistency

    A shallow embedding of the account core of GOHMoney:

    - [NullTime]          from [NullTime.go];
    - [Legacy]            the account package that still owns its temporal
                          checks (name and time range only, balances validated
                          before the containment test);
    - [Current]           the currency-aware account package built on the
                          range setters and on functional options.

    Go's [time.Time] is taken as the instant it denotes; every comparison the
    code makes goes through [Equal], [Before], [After] and [IsZero], none of
    which looks at the location or at the monotonic reading. *)

From Stdlib Require Import ZArith NArith Bool List String Ascii Lia.
Import ListNotations.

Local Open Scope string_scope.
Local Open Scope list_scope.
Local Open Scope Z_scope.

(** ** time.Time *)

Module time.

(** Nanoseconds elapsed since the zero time (January 1, year 1, 00:00 UTC);
    negative for earlier instants. *)
Definition Time := Z.

Definition zero : Time := 0.

Definition IsZero (t : Time) : bool := t =? 0.
Definition Equal (t u : Time) : bool := t =? u.
Definition Before (t u : Time) : bool := t <? u.
Definition After (t u : Time) : bool := t >? u.

End time.

(** ** Errors *)

(** Modelled from the spec: the descriptions the validators collect are
    sentinel strings whose declarations lie outside the code embedded here.
    Each constant is rendered by its own name, which keeps them pairwise
    distinct. *)
Definition EmptyNameError : string := "EmptyNameError".
Definition ZeroDateOpenedError : string := "ZeroDateOpenedError".
Definition ZeroValidDateClosedError : string := "ZeroValidDateClosedError".
Definition DateClosedBeforeDateOpenedError : string :=
  "DateClosedBeforeDateOpenedError".

(** ** NullTime (NullTime.go) *)

Record NullTime := mkNullTime { Time : time.Time; Valid : bool }.

Module NullTime.

(** The zero value [NullTime{}]. *)
Definition zero : NullTime := {| Time := time.zero; Valid := false |}.

Definition Equal (a b : NullTime) : bool :=
  if negb (Bool.eqb (Valid a) (Valid b)) || negb (time.Equal (Time a) (Time b))
  then false
  else true.

Definition EqualTime (nt : NullTime) (t : time.Time) : bool :=
  if negb (Valid nt) then false
  else if negb (time.Equal (Time nt) t) then false
  else true.

End NullTime.

(** ** Time ranges, errors and balances *)

Record TimeRange := mkTimeRange { Start : NullTime; End : NullTime }.

(** Go's [error] values met in this code. *)
Inductive error :=
| FieldError (descriptions : list string)
| DateOutOfAccountTimeRange (BalanceDate : time.Time)
                            (AccountTimeRange : TimeRange)
| errorString (text : string).

(** The outcome of a setter: the range it leaves behind, or its error. *)
Inductive Result (A : Type) :=
| Ok (a : A)
| Err (e : error).
Arguments Ok {A} a.
Arguments Err {A} e.

(** A balance as the account code reads it: only [Date] is inspected, the
    monetary part is carried along. *)
Record Balance := mkBalance { Date : time.Time; Amount : Z }.

Module TimeRange.

Definition zero : TimeRange :=
  {| Start := NullTime.zero; End := NullTime.zero |}.

(** Modelled from the spec: the start setter of a range ([gohtime.Start]),
    whose source lies outside the account package.  It sets the start to a
    valid NullTime wrapping [t] and fails with ZeroDateOpenedError when [t] is
    the zero time. *)
Definition SetStart (t : time.Time) (r : TimeRange) : Result TimeRange :=
  if time.IsZero t then Err (errorString ZeroDateOpenedError)
  else Ok {| Start := {| Time := t; Valid := true |}; End := End r |}.

(** Modelled from the spec: the end setter of a range ([gohtime.End]), whose
    source lies outside the account package.  It sets the end to a valid
    NullTime wrapping [t], fails with ZeroValidDateClosedError when [t] is zero
    and with DateClosedBeforeDateOpenedError when [t] is strictly before the
    current start. *)
Definition SetEnd (t : time.Time) (r : TimeRange) : Result TimeRange :=
  if time.IsZero t then Err (errorString ZeroValidDateClosedError)
  else if time.Before t (Time (Start r))
       then Err (errorString DateClosedBeforeDateOpenedError)
       else Ok {| Start := Start r; End := {| Time := t; Valid := true |} |}.

(** Modelled from the spec: [Contains], whose source lies outside the account
    package.  It holds iff [t] is not before the start and the end is either
    invalid or not exceeded by [t]. *)
Definition Contains (r : TimeRange) (t : time.Time) : bool :=
  negb (time.Before t (Time (Start r)))
  && (negb (Valid (End r)) || negb (time.After t (Time (End r)))).

(** Modelled from the spec: [Equal], whose source lies outside the account
    package.  Both NullTime fields are compared with [NullTime.Equal]. *)
Definition Equal (r r2 : TimeRange) : bool :=
  NullTime.Equal (Start r) (Start r2) && NullTime.Equal (End r) (End r2).

(** Modelled from the spec: the [Validate] of the legacy [TimeRange], whose
    source lies outside the account package.  The legacy account validator
    makes the two zero-date checks itself and appends the single message of the
    range, so the range contributes the remaining check of the spec: an end
    that is valid and before the start is DateClosedBeforeDateOpenedError. *)
Definition Validate (r : TimeRange) : option string :=
  if Valid (End r) && time.Before (Time (End r)) (Time (Start r))
  then Some DateClosedBeforeDateOpenedError
  else None.


End TimeRange.

(** ** strings.TrimSpace

    The standard library's [strings.TrimSpace] trims the runes on which
    [unicode.IsSpace] holds, decoding the string as UTF-8 from the front and
    from the back; its fast path over ASCII bytes returns what [TrimFunc]
    returns, which is what is embedded here. *)

Module utf8.

Definition RuneError : N := 65533.
Definition RuneSelf : N := 128.
Definition UTFMax : nat := 4.

(** [s[i]], read as 0 past the end; every use is guarded by a length test. *)
Definition byteAt (s : string) (i : nat) : N :=
  match String.get i s with
  | Some c => N_of_ascii c
  | None => 0%N
  end.

Definition between (lo hi b : N) : bool := ((lo <=? b) && (b <=? hi))%N.

(** The length a first byte announces and the range its second byte must lie
    in; [None] for ASCII and for bytes that start no sequence. *)
Definition first (s0 : N) : option (nat * (N * N)) :=
  if between 194 223 s0 then Some (2%nat, (128, 191))%N
  else if (s0 =? 224)%N then Some (3%nat, (160, 191))%N
  else if between 225 236 s0 then Some (3%nat, (128, 191))%N
  else if (s0 =? 237)%N then Some (3%nat, (128, 159))%N
  else if between 238 239 s0 then Some (3%nat, (128, 191))%N
  else if (s0 =? 240)%N then Some (4%nat, (144, 191))%N
  else if between 241 243 s0 then Some (4%nat, (128, 191))%N
  else if (s0 =? 244)%N then Some (4%nat, (128, 143))%N
  else None.

Definition DecodeRuneInString (s : string) : N * nat :=
  let n := String.length s in
  if (n <? 1)%nat then (RuneError, 0%nat)
  else
    let s0 := byteAt s 0 in
    match first s0 with
    | None => if (s0 <? RuneSelf)%N then (s0, 1%nat) else (RuneError, 1%nat)
    | Some (sz, (lo, hi)) =>
        if (n <? sz)%nat then (RuneError, 1%nat)
        else
          let s1 := byteAt s 1 in
          if negb (between lo hi s1) then (RuneError, 1%nat)
          else if (sz <=? 2)%nat
          then (N.lor (N.shiftl (N.land s0 31) 6) (N.land s1 63), 2%nat)
          else
            let s2 := byteAt s 2 in
            if negb (between 128 191 s2) then (RuneError, 1%nat)
            else if (sz <=? 3)%nat
            then (N.lor (N.shiftl (N.land s0 15) 12)
                    (N.lor (N.shiftl (N.land s1 63) 6) (N.land s2 63)),
                  3%nat)
            else
              let s3 := byteAt s 3 in
              if negb (between 128 191 s3) then (RuneError, 1%nat)
              else (N.lor (N.shiftl (N.land s0 7) 18)
                      (N.lor (N.shiftl (N.land s1 63) 12)
                         (N.lor (N.shiftl (N.land s2 63) 6) (N.land s3 63))),
                    4%nat)
    end.

Definition RuneStart (b : N) : bool := negb (N.land b 192 =? 128)%N.

(** The backward scan of [DecodeLastRuneInString]: from [start] down to
    [lim], stopping at a byte that can start a rune. *)
Fixpoint scanBack (fuel : nat) (s : string) (start lim : Z) : Z :=
  match fuel with
  | O => start
  | S fuel' =>
      if start <? lim then start
      else if RuneStart (byteAt s (Z.to_nat start)) then start
           else scanBack fuel' s (start - 1) lim
  end.

Definition DecodeLastRuneInString (s : string) : N * nat :=
  let end_ := Z.of_nat (String.length s) in
  if end_ =? 0 then (RuneError, 0%nat)
  else
    let start := end_ - 1 in
    let r := byteAt s (Z.to_nat start) in
    if (r <? RuneSelf)%N then (r, 1%nat)
    else
      let lim := end_ - Z.of_nat UTFMax in
      let lim := if lim <? 0 then 0 else lim in
      let start := scanBack UTFMax s (start - 1) lim in
      let start := if start <? 0 then 0 else start in
      let (r, size) :=
        DecodeRuneInString
          (String.substring (Z.to_nat start) (Z.to_nat (end_ - start)) s) in
      if negb (start + Z.of_nat size =? end_) then (RuneError, 1%nat)
      else (r, size).

End utf8.

Module unicode.

Definition IsSpace (r : N) : bool :=
  if (r <=? 255)%N
  then utf8.between 9 13 r || (r =? 32)%N || (r =? 133)%N || (r =? 160)%N
  else (r =? 5760)%N || utf8.between 8192 8202 r || (r =? 8232)%N
       || (r =? 8233)%N || (r =? 8239)%N || (r =? 8287)%N || (r =? 12288)%N.

End unicode.

Module strings.

(** [for i, r := range s]: the index of the first rune on which [f] answers
    [truth], or -1; [i] is the index of [s] in the whole string. *)
Fixpoint indexFuncFrom (fuel : nat) (i : nat) (s : string)
  (f : N -> bool) (truth : bool) : Z :=
  match fuel with
  | O => -1
  | S fuel' =>
      match s with
      | EmptyString => -1
      | _ =>
          let (r, size) := utf8.DecodeRuneInString s in
          if Bool.eqb (f r) truth then Z.of_nat i
          else indexFuncFrom fuel' (i + size)
                 (String.substring size (String.length s - size) s) f truth
      end
  end.

Definition indexFunc (s : string) (f : N -> bool) (truth : bool) : Z :=
  indexFuncFrom (String.length s) 0 s f truth.

(** [for i := len(s); i > 0; ...], decoding the last rune of [s[0:i]]. *)
Fixpoint lastIndexFuncFrom (fuel : nat) (i : nat) (s : string)
  (f : N -> bool) (truth : bool) : Z :=
  match fuel with
  | O => -1
  | S fuel' =>
      if (0 <? i)%nat
      then
        let (r, size) :=
          utf8.DecodeLastRuneInString (String.substring 0 i s) in
        let i := (i - size)%nat in
        if Bool.eqb (f r) truth then Z.of_nat i
        else lastIndexFuncFrom fuel' i s f truth
      else -1
  end.

Definition lastIndexFunc (s : string) (f : N -> bool) (truth : bool) : Z :=
  lastIndexFuncFrom (String.length s) (String.length s) s f truth.

Definition TrimLeftFunc (s : string) (f : N -> bool) : string :=
  let i := indexFunc s f false in
  if i =? -1 then EmptyString
  else String.substring (Z.to_nat i) (String.length s - Z.to_nat i) s.

Definition TrimRightFunc (s : string) (f : N -> bool) : string :=
  let i := lastIndexFunc s f false in
  let i :=
    if (0 <=? i) && (utf8.RuneSelf <=? utf8.byteAt s (Z.to_nat i))%N
    then
      let (_, wid) :=
        utf8.DecodeRuneInString
          (String.substring (Z.to_nat i) (String.length s - Z.to_nat i) s) in
      i + Z.of_nat wid
    else i + 1 in
  String.substring 0 (Z.to_nat i) s.

Definition TrimFunc (s : string) (f : N -> bool) : string :=
  TrimRightFunc (TrimLeftFunc s f) f.

Definition TrimSpace (s : string) : string := TrimFunc s unicode.IsSpace.

End strings.

(** [len(strings.TrimSpace(name)) == 0], the test both validators make. *)
Definition blankName (name : string) : bool :=
  (String.length (strings.TrimSpace name) =? 0)%nat.
Arguments blankName : simpl never.

(** ** The legacy account package

    An account is a name and a time range; validation makes the temporal
    checks itself and balances are validated before the containment test. *)

Module Legacy.

Record Account := mkAccount { Name : string; timeRange : TimeRange }.

(** [Account{}]. *)
Definition zero : Account :=
  {| Name := EmptyString; timeRange := TimeRange.zero |}.

Definition Start (account : Account) : time.Time :=
  Time (Start (timeRange account)).

Definition End (account : Account) : NullTime :=
  End (timeRange account).

Definition IsOpen (account : Account) : bool :=
  negb (Valid (End account)).

(** The slice of descriptions is built by successive appends; a slice that
    stayed empty is returned as nil ([None]). *)
Definition Validate (account : Account) : option (list string) :=
  let fieldErrorDescriptions : list string := [] in
  let fieldErrorDescriptions :=
    if blankName (Name account)
    then fieldErrorDescriptions ++ [EmptyNameError]
    else fieldErrorDescriptions in
  let fieldErrorDescriptions :=
    match TimeRange.Validate (timeRange account) with
    | Some err => fieldErrorDescriptions ++ [err]
    | None => fieldErrorDescriptions
    end in
  let fieldErrorDescriptions :=
    if time.IsZero (Start account)
    then fieldErrorDescriptions ++ [ZeroDateOpenedError]
    else fieldErrorDescriptions in
  let fieldErrorDescriptions :=
    if Valid (End account) && time.IsZero (Time (End account))
    then fieldErrorDescriptions ++ [ZeroValidDateClosedError]
    else fieldErrorDescriptions in
  if (0 <? List.length fieldErrorDescriptions)%nat
  then Some fieldErrorDescriptions
  else None.

(** [New] returns the account together with the outcome of its validation. *)
Definition New (name : string) (opened : time.Time) (closed : NullTime)
  : Account * option error :=
  let a := {| Name := name;
              timeRange := mkTimeRange {| Time := opened; Valid := true |}
                                       closed |} in
  match Validate a with
  | Some aErr =>
      if (0 <? List.length aErr)%nat then (a, Some (FieldError aErr))
      else (a, None)
  | None => (a, None)
  end.

(** [BalanceValidate] stands for [b.Validate()], the balance package's own
    check, which this package only calls. *)
Definition ValidateBalance (BalanceValidate : Balance -> option error)
  (account : Account) (b : Balance) : option error :=
  match Validate account with
  | Some err => Some (FieldError err)
  | None =>
      match BalanceValidate b with
      | Some err => Some err
      | None =>
          if negb (TimeRange.Contains (timeRange account) (Date b))
             && (negb (Valid (End account))
                 || negb (time.Equal (Time (End account)) (Date b)))
          then Some (DateOutOfAccountTimeRange (Date b) (timeRange account))
          else None
      end
  end.

(** The struct [MarshalJSON] hands to [json.Marshal]: [Name], promoted from
    the embedded alias, and [Start] and [End]. *)
Record JSON := mkJSON
  { jsonName : string; jsonStart : time.Time; jsonEnd : NullTime }.

(** What [json.Unmarshal(data, &aux)] does with a text: the name it writes
    through the alias, if it writes one; the values it leaves in [Start] and
    [End] of [aux], zero when the text has no such member; and its error. *)
Record Decoded := mkDecoded
  { decName : option string; decStart : time.Time; decEnd : NullTime;
    decErr : option error }.

(** [jsonMarshal] stands for [json.Marshal] on the struct above: the text it
    writes, or its error. *)
Definition MarshalJSON {bytes : Type} (jsonMarshal : JSON -> Result bytes)
  (account : Account) : Result bytes :=
  jsonMarshal {| jsonName := Name account; jsonStart := Start account;
                 jsonEnd := End account |}.

(** [jsonUnmarshal] stands for [json.Unmarshal] into [aux].  The decoder
    writes the name through the alias, also when it goes on to fail; after a
    successful decoding the range is overwritten with a valid start and the
    decoded end, and the account is validated. *)
Definition UnmarshalJSON {bytes : Type} (jsonUnmarshal : bytes -> Decoded)
  (account : Account) (data : bytes) : Account * option error :=
  let aux := jsonUnmarshal data in
  let account :=
    match decName aux with
    | Some name => {| Name := name; timeRange := timeRange account |}
    | None => account
    end in
  match decErr aux with
  | Some err => (account, Some err)
  | None =>
      let account :=
        {| Name := Name account;
           timeRange := mkTimeRange {| Time := decStart aux; Valid := true |}
                                    (decEnd aux) |} in
      match Validate account with
      | Some err => (account, Some (FieldError err))
      | None => (account, None)
      end
  end.

Definition Equal (a b : Account) : bool :=
  if negb (String.eqb (Name a) (Name b)) then false
  else if negb (TimeRange.Equal (timeRange a) (timeRange b)) then false
  else true.

End Legacy.

(** ** The currency-aware account package

    An account also carries a currency code; its range is written only by the
    validated setters, applied by [New], by options and by [UnmarshalJSON]. *)

Module currency.

(** [currency.Code], a string type. *)
Definition Code := string.

End currency.

Module Current.

Record Account := mkAccount
  { Name : string; timeRange : TimeRange; currencyCode : currency.Code }.

(** [Account{}]. *)
Definition zero : Account :=
  {| Name := EmptyString; timeRange := TimeRange.zero;
     currencyCode := EmptyString |}.

(** An option mutates the account it is handed and may fail: the account the
    call leaves behind, and its error. *)
Definition Option := Account -> Account * option error.

(** Modelled from the spec: the option [CloseTime], declared in a file of the
    account package that is not part of this development.  It closes the
    account at [t] by invoking the end setter of the range. *)
Definition CloseTime (t : time.Time) : Option :=
  fun a =>
    match TimeRange.SetEnd t (timeRange a) with
    | Ok r => ({| Name := Name a; timeRange := r;
                  currencyCode := currencyCode a |}, None)
    | Err e => (a, Some e)
    end.

Definition Start (a : Account) : time.Time := Time (Start (timeRange a)).

Definition End (a : Account) : NullTime := End (timeRange a).

Definition IsOpen (a : Account) : bool := negb (Valid (End a)).

Definition CurrencyCode (a : Account) : currency.Code := currencyCode a.

Definition Validate (a : Account) : option (list string) :=
  let fieldErrorDescriptions : list string := [] in
  let fieldErrorDescriptions :=
    if blankName (Name a)
    then fieldErrorDescriptions ++ [EmptyNameError]
    else fieldErrorDescriptions in
  if (0 <? List.length fieldErrorDescriptions)%nat
  then Some fieldErrorDescriptions
  else None.

(** The loop of [New] over its options: nil options are skipped and the first
    failure stops the loop. *)
Fixpoint applyOptions (os : list (option Option)) (a : Account)
  : Account * option error :=
  match os with
  | [] => (a, None)
  | None :: os' => applyOptions os' a
  | Some o :: os' =>
      match o a with
      | (a', Some err) => (a', Some err)
      | (a', None) => applyOptions os' a'
      end
  end.

(** [New] returns a pointer and an error: [None] is the nil pointer. *)
Definition New (name : string) (currencyCode : currency.Code)
  (opened : time.Time) (os : list (option Option))
  : option Account * option error :=
  match TimeRange.SetStart opened TimeRange.zero with
  | Err err => (None, Some err)
  | Ok r =>
      let a := {| Name := name; timeRange := r;
                  currencyCode := currencyCode |} in
      match applyOptions os a with
      | (_, Some err) => (None, Some err)
      | (a, None) =>
          match Validate a with
          | Some aErr =>
              if (0 <? List.length aErr)%nat
              then (Some a, Some (FieldError aErr))
              else (Some a, None)
          | None => (Some a, None)
          end
      end
  end.

Definition ValidateBalance (a : Account) (b : Balance) : option error :=
  match Validate a with
  | Some err => Some (FieldError err)
  | None =>
      if negb (TimeRange.Contains (timeRange a) (Date b))
         && (negb (Valid (End a)) || negb (time.Equal (Time (End a)) (Date b)))
      then Some (DateOutOfAccountTimeRange (Date b) (timeRange a))
      else None
  end.

(** The struct [MarshalJSON] hands to [json.Marshal]: [Name], promoted from
    the embedded alias, and [Start], [End] and [Currency]. *)
Record JSON := mkJSON
  { jsonName : string; jsonStart : time.Time; jsonEnd : NullTime;
    jsonCurrency : string }.

(** What [json.Unmarshal(data, &aux)] does with a text: the name it writes
    through the alias, if it writes one; the values it leaves in [Start],
    [End] and [Currency] of [aux], zero when the text has no such member; and
    its error. *)
Record Decoded := mkDecoded
  { decName : option string; decStart : time.Time; decEnd : NullTime;
    decCurrency : string; decErr : option error }.

(** [jsonMarshal] stands for [json.Marshal] on the struct above: the text it
    writes, or its error. *)
Definition MarshalJSON {bytes : Type} (jsonMarshal : JSON -> Result bytes)
  (a : Account) : Result bytes :=
  jsonMarshal {| jsonName := Name a; jsonStart := Start a; jsonEnd := End a;
                 jsonCurrency := currencyCode a |}.

(** [jsonUnmarshal] stands for [json.Unmarshal] into [aux], and [NewCode] for
    [currency.NewCode], the currency package's parser; this package only
    calls them.  The receiver is written step by step, as the code writes
    through its pointer: the name by the decoder, also when it goes on to
    fail, then the currency code, then the range. *)
Definition UnmarshalJSON {bytes : Type} (jsonUnmarshal : bytes -> Decoded)
  (NewCode : string -> Result currency.Code)
  (a : Account) (data : bytes) : Account * option error :=
  let aux := jsonUnmarshal data in
  let a :=
    match decName aux with
    | Some name => {| Name := name; timeRange := timeRange a;
                      currencyCode := currencyCode a |}
    | None => a
    end in
  match decErr aux with
  | Some err => (a, Some err)
  | None =>
      match NewCode (decCurrency aux) with
      | Err err => (a, Some err)
      | Ok c =>
          let a := {| Name := Name a; timeRange := timeRange a;
                      currencyCode := c |} in
          match TimeRange.SetStart (decStart aux) TimeRange.zero with
          | Err err => (a, Some err)
          | Ok tr =>
              match (if Valid (decEnd aux)
                     then TimeRange.SetEnd (Time (decEnd aux)) tr
                     else Ok tr) with
              | Err err => (a, Some err)
              | Ok tr =>
                  let a := {| Name := Name a; timeRange := tr;
                              currencyCode := currencyCode a |} in
                  match Validate a with
                  | Some validErr => (a, Some (FieldError validErr))
                  | None => (a, None)
                  end
              end
          end
      end
  end.

Definition Equal (a b : Account) : bool :=
  if negb (String.eqb (Name a) (Name b)) then false
  else if negb (TimeRange.Equal (timeRange a) (timeRange b)) then false
  else true.

End Current.

(** ** Helpers of the legacy tests *)

(** The loop of [stringSlicesMatch]: [i] runs from its start value up to
    [len(array1)], [fuel] bounding the number of iterations left.  Indexing
    past the end of a slice panics in Go; the loop never does it once the
    lengths are known to agree, and [nth] reads the empty string there. *)
Fixpoint stringSlicesMatchFrom (fuel i : nat) (array1 array2 : list string)
  : bool :=
  match fuel with
  | O => true
  | S fuel' =>
      if (i <? List.length array1)%nat
      then if negb (String.eqb (nth i array1 EmptyString)
                               (nth i array2 EmptyString))
           then false
           else stringSlicesMatchFrom fuel' (S i) array1 array2
      else true
  end.

Definition stringSlicesMatch (array1 array2 : list string) : bool :=
  if negb (List.length array1 =? List.length array2)%nat then false
  else stringSlicesMatchFrom (List.length array1) 0 array1 array2.

(** The options of a call that are not nil. *)
Definition nonNil (os : list (option Current.Option))
  : list (option Current.Option) :=
  filter (fun o => match o with Some _ => true | None => false end) os.

(** ** Auxiliary definitions *)

(** The descriptions the legacy validator has appended when it returns. *)
Definition legacyDescriptions (account : Legacy.Account) : list string :=
  (if blankName (Legacy.Name account) then [EmptyNameError] else [])
  ++ match TimeRange.Validate (Legacy.timeRange account) with
     | Some err => [err]
     | None => []
     end
  ++ (if time.IsZero (Legacy.Start account) then [ZeroDateOpenedError] else [])
  ++ (if Valid (Legacy.End account)
         && time.IsZero (Time (Legacy.End account))
      then [ZeroValidDateClosedError] else []).

(** What the decoder makes of a text in which every member of the account
    is read back as it was written. *)
Definition readBack (a : Current.Account) : Current.Decoded :=
  {| Current.decName := Some (Current.Name a);
     Current.decStart := Current.Start a;
     Current.decEnd := Current.End a;
     Current.decCurrency := Current.currencyCode a;
     Current.decErr := None |}.



(** ** Example data *)

(** Nanoseconds in a day, for the dated examples. *)
Definition day : Z := 86400 * 1000000000.

(** An account opened on day 730000 and closed 400 days later. *)
Definition closedAccount : Current.Account :=
  Current.mkAccount "Test Account"
    (mkTimeRange {| Time := 730000 * day; Valid := true |}
                 {| Time := 730400 * day; Valid := true |})
    "EUR".

(** The same account, still open. *)
Definition openAccount : Current.Account :=
  Current.mkAccount "Test Account"
    (mkTimeRange {| Time := 730000 * day; Valid := true |} NullTime.zero)
    "EUR".

(** A balance check for the examples: a negative amount is refused. *)
Definition refuseNegative (b : Balance) : option error :=
  if Amount b <? 0 then Some (errorString "negative amount") else None.

(** The legacy counterpart of [closedAccount]. *)
Definition legacyAccount : Legacy.Account :=
  Legacy.mkAccount "TEST_ACCOUNT"
    (mkTimeRange {| Time := 730000 * day; Valid := true |}
                 {| Time := 730400 * day; Valid := true |}).


(** ** encoding/json on the structs of the two packages

    The packages hand their structs to [json.Marshal] and their texts to
    [json.Unmarshal]; the embedding takes both as parameters.  This module is
    the instance the examples run on: what the standard library does with
    these structs, a text being identified with the struct it was written
    from. *)

Module json.

(** A string written and read back: the encoder replaces every byte that
    decodes to [RuneError] with width 1 by U+FFFD and escapes the rest
    reversibly. *)
Fixpoint coerceFrom (fuel : nat) (s : string) : string :=
  match fuel with
  | O => EmptyString
  | S fuel' =>
      match s with
      | EmptyString => EmptyString
      | _ =>
          let (r, size) := utf8.DecodeRuneInString s in
          let rest :=
            coerceFrom fuel'
              (String.substring size (String.length s - size) s) in
          if ((r =? utf8.RuneError)%N && (size =? 1)%nat)%bool
          then String (ascii_of_nat 239)
                 (String (ascii_of_nat 191) (String (ascii_of_nat 189) rest))
          else String.append (String.substring 0 size s) rest
      end
  end.

Definition coerce (s : string) : string := coerceFrom (String.length s) s.

(** [time.Time.MarshalJSON] refuses a year outside [0,9999]; the year is
    read in UTC, the instant carrying no location.  A time that is written
    is read back as the same instant. *)
Definition yearInRange (t : time.Time) : bool :=
  (-366 * day <=? t) && (t <? 3652059 * day).

Definition yearError : error :=
  errorString "Time.MarshalJSON: year outside of range [0,9999]".

(** A NullTime is written as the struct of its two fields, so its time is
    written whether or not it is valid. *)
Definition MarshalLegacy (v : Legacy.JSON) : Result Legacy.JSON :=
  if yearInRange (Legacy.jsonStart v)
     && yearInRange (Time (Legacy.jsonEnd v))
  then Ok v else Err yearError.



Definition UnmarshalCurrent (data : Current.JSON) : Current.Decoded :=
  {| Current.decName := Some (coerce (Current.jsonName data));
     Current.decStart := Current.jsonStart data;
     Current.decEnd := Current.jsonEnd data;
     Current.decCurrency := coerce (Current.jsonCurrency data);
     Current.decErr := None |}.

End json.

(** The name made of the single byte 0xFF, which is no UTF-8. *)
Definition invalidName : string := String (ascii_of_nat 255) EmptyString.

(** * Properties *)

(** ** Time comparisons *)

Lemma time_Equal_iff (t u : time.Time) : time.Equal t u = true <-> t = u.
Proof. unfold time.Equal. apply Z.eqb_eq. Qed.

Lemma time_Equal_refl (t : time.Time) : time.Equal t t = true.
Proof. apply time_Equal_iff. reflexivity. Qed.


Lemma time_Before_not_Equal (t u : time.Time) :
  time.Before t u = true -> time.Equal u t = false.
Proof. unfold time.Before, time.Equal. rewrite Z.ltb_lt, Z.eqb_neq. lia. Qed.

(** ** NullTime *)

Lemma NullTime_Equal_refl (a : NullTime) : NullTime.Equal a a = true.
Proof.
  unfold NullTime.Equal. rewrite Bool.eqb_reflx, time_Equal_refl. reflexivity.
Qed.

(** C7. [NullTime.Equal a b] is true iff the Valid flags match and the
    timestamps are equal; the timestamps are compared even when both values
    are invalid, so two invalid NullTimes with different raw timestamps are
    not equal. *)
Theorem NullTime_Equal_strict (a b : NullTime) :
  (NullTime.Equal a b = true
   <-> Valid a = Valid b /\ time.Equal (Time a) (Time b) = true)
  /\ (Valid a = false -> Valid b = false -> Time a <> Time b ->
      NullTime.Equal a b = false).
Proof.
  unfold NullTime.Equal. split.
  - destruct (Bool.eqb (Valid a) (Valid b)) eqn:Hv;
      destruct (time.Equal (Time a) (Time b)) eqn:Ht; cbn.
    + apply Bool.eqb_prop in Hv. tauto.
    + split; [discriminate | intros [_ H]; discriminate H].
    + split; [discriminate |].
      intros [H _]. rewrite H, Bool.eqb_reflx in Hv. discriminate Hv.
    + split; [discriminate | intros [_ H]; discriminate H].
  - intros _ _ Hne.
    destruct (time.Equal (Time a) (Time b)) eqn:Ht.
    + apply time_Equal_iff in Ht. contradiction.
    + rewrite orb_true_r. reflexivity.
Qed.

Lemma NullTime_Equal_strict_witness :
  NullTime.Equal {| Time := 1; Valid := false |}
                 {| Time := 2; Valid := false |} = false.
Proof.
  apply (proj2 (NullTime_Equal_strict {| Time := 1; Valid := false |}
                                      {| Time := 2; Valid := false |}));
    [reflexivity | reflexivity | cbn; lia].
Defined.

Lemma NullTime_EqualTime_invalid (nt : NullTime) (t : time.Time) :
  Valid nt = false -> NullTime.EqualTime nt t = false.
Proof. unfold NullTime.EqualTime. intros ->. reflexivity. Qed.

(** ** IsOpen *)

(** C8. In both account packages [IsOpen] is true iff the end NullTime is
    invalid, and the zero-valued Account is open. *)
Theorem IsOpen_iff_End_invalid :
  (forall a : Current.Account,
      Current.IsOpen a = true <-> Valid (Current.End a) = false)
  /\ Current.IsOpen Current.zero = true
  /\ (forall a : Legacy.Account,
         Legacy.IsOpen a = true <-> Valid (Legacy.End a) = false)
  /\ Legacy.IsOpen Legacy.zero = true.
Proof.
  repeat split; try reflexivity;
    unfold Current.IsOpen, Legacy.IsOpen;
    try (intros H; apply negb_true_iff in H; exact H);
    intros ->; reflexivity.
Qed.

(** ** Validate *)

Lemma Current_Validate_cases (a : Current.Account) :
  Current.Validate a
  = if blankName (Current.Name a) then Some [EmptyNameError] else None.
Proof. unfold Current.Validate. destruct (blankName _); reflexivity. Qed.

Lemma Legacy_Validate_cases (account : Legacy.Account) :
  Legacy.Validate account
  = match legacyDescriptions account with
    | [] => None
    | d :: ds => Some (d :: ds)
    end.
Proof.
  unfold Legacy.Validate, legacyDescriptions.
  destruct (blankName (Legacy.Name account)),
    (TimeRange.Validate (Legacy.timeRange account)),
    (time.IsZero (Legacy.Start account)),
    (Valid (Legacy.End account) && time.IsZero (Time (Legacy.End account)));
    reflexivity.
Qed.

(** C9. In both account packages [Validate] never returns an empty but
    present collection, and it returns nil exactly when every check passes. *)
Theorem Validate_no_error_is_nil :
  (forall a : Current.Account,
      Current.Validate a <> Some []
      /\ (blankName (Current.Name a) = false <-> Current.Validate a = None))
  /\ (forall a : Legacy.Account,
         Legacy.Validate a <> Some []
         /\ (blankName (Legacy.Name a) = false
             /\ TimeRange.Validate (Legacy.timeRange a) = None
             /\ time.IsZero (Legacy.Start a) = false
             /\ Valid (Legacy.End a) && time.IsZero (Time (Legacy.End a))
                = false
             <-> Legacy.Validate a = None)).
Proof.
  split; intros a.
  - rewrite Current_Validate_cases.
    destruct (blankName _); repeat split; congruence.
  - rewrite Legacy_Validate_cases. unfold legacyDescriptions.
    destruct (blankName (Legacy.Name a)),
      (TimeRange.Validate (Legacy.timeRange a)),
      (time.IsZero (Legacy.Start a)),
      (Valid (Legacy.End a) && time.IsZero (Time (Legacy.End a))); cbn;
      repeat split; try congruence; intros H; decompose [and] H; congruence.
Qed.

Lemma Validate_no_error_is_nil_witness :
  Current.Validate (Current.mkAccount "TEST ACCOUNT" TimeRange.zero "EUR")
  = None.
Proof.
  apply (proj2 (proj1 Validate_no_error_is_nil
                  (Current.mkAccount "TEST ACCOUNT" TimeRange.zero "EUR"))).
  reflexivity.
Defined.

(** C1 fails as stated: an account with an empty name and a zero start whose
    end is valid but zero gets a third description from the legacy validator,
    and the currency-aware validator reports the name alone. *)
Lemma Validate_empty_zero_counterexample :
  let a := Legacy.mkAccount ""
             (mkTimeRange NullTime.zero {| Time := time.zero; Valid := true |})
  in
  blankName (Legacy.Name a) = true
  /\ time.IsZero (Legacy.Start a) = true
  /\ Legacy.Validate a
     = Some [EmptyNameError; ZeroDateOpenedError; ZeroValidDateClosedError]
  /\ Legacy.Validate a <> Some [EmptyNameError; ZeroDateOpenedError]
  /\ Current.Validate Current.zero = Some [EmptyNameError]
  /\ Current.Validate Current.zero
     <> Some [EmptyNameError; ZeroDateOpenedError].
Proof. cbv zeta. repeat split; try reflexivity; discriminate. Qed.

(** C1, amended.  For every legacy Account whose name is empty after trimming
    and whose start is the zero time, [Validate] returns EmptyNameError first,
    then the message of the range if it has one, then ZeroDateOpenedError,
    then ZeroValidDateClosedError if the end is valid and zero: no check is
    skipped because an earlier one failed.  When the range itself validates
    and the end is not a valid zero time, the result is exactly EmptyNameError
    followed by ZeroDateOpenedError. *)
Theorem Validate_empty_name_zero_start (a : Legacy.Account) :
  blankName (Legacy.Name a) = true ->
  time.IsZero (Legacy.Start a) = true ->
  Legacy.Validate a
  = Some (EmptyNameError
          :: match TimeRange.Validate (Legacy.timeRange a) with
             | Some err => [err]
             | None => []
             end
          ++ ZeroDateOpenedError
          :: (if Valid (Legacy.End a) && time.IsZero (Time (Legacy.End a))
              then [ZeroValidDateClosedError] else []))
  /\ (TimeRange.Validate (Legacy.timeRange a) = None ->
      Valid (Legacy.End a) && time.IsZero (Time (Legacy.End a)) = false ->
      Legacy.Validate a = Some [EmptyNameError; ZeroDateOpenedError]).
Proof.
  intros Hname Hzero. rewrite Legacy_Validate_cases.
  unfold legacyDescriptions. rewrite Hname, Hzero. split.
  - reflexivity.
  - intros -> ->. reflexivity.
Qed.

Lemma Validate_empty_name_zero_start_witness :
  Legacy.Validate Legacy.zero = Some [EmptyNameError; ZeroDateOpenedError].
Proof.
  apply (proj2 (Validate_empty_name_zero_start Legacy.zero
                  eq_refl eq_refl)); reflexivity.
Defined.

(** The currency-aware validator only looks at the name. *)
Lemma Current_Validate_blank_name (a : Current.Account) :
  blankName (Current.Name a) = true ->
  Current.Validate a = Some [EmptyNameError].
Proof. intros H. rewrite Current_Validate_cases, H. reflexivity. Qed.

(** ** ValidateBalance *)

(** C2. When the Account's own [Validate] returns a FieldError,
    [ValidateBalance] returns that very FieldError, whatever the Balance is
    (and, in the legacy package, whatever the Balance's own validation says):
    neither the Balance nor the containment test is consulted. *)
Theorem ValidateBalance_invalid_account :
  (forall (a : Current.Account) (b : Balance) (err : list string),
      Current.Validate a = Some err ->
      Current.ValidateBalance a b = Some (FieldError err))
  /\ (forall (BalanceValidate : Balance -> option error)
             (a : Legacy.Account) (b : Balance) (err : list string),
         Legacy.Validate a = Some err ->
         Legacy.ValidateBalance BalanceValidate a b = Some (FieldError err)).
Proof.
  split; intros.
  - unfold Current.ValidateBalance. rewrite H. reflexivity.
  - unfold Legacy.ValidateBalance. rewrite H. reflexivity.
Qed.

Lemma ValidateBalance_invalid_account_witness :
  Current.ValidateBalance Current.zero (mkBalance 5 100)
  = Some (FieldError [EmptyNameError]).
Proof.
  apply (proj1 ValidateBalance_invalid_account Current.zero (mkBalance 5 100)).
  reflexivity.
Defined.

(** The result of [ValidateBalance] on an invalid Account does not depend on
    the Balance. *)
Lemma ValidateBalance_ignores_balance (a : Current.Account)
  (b b' : Balance) (err : list string) :
  Current.Validate a = Some err ->
  Current.ValidateBalance a b = Current.ValidateBalance a b'.
Proof.
  intros H. unfold Current.ValidateBalance. rewrite H. reflexivity.
Qed.









(** C10. In the legacy package, once the Account has passed its own
    validation, the error of the Balance's own validation is returned before
    any containment test, hence also for a date inside the range. *)
Theorem ValidateBalance_legacy_validates_balance
  (BalanceValidate : Balance -> option error)
  (a : Legacy.Account) (b : Balance) (err : error) :
  Legacy.Validate a = None ->
  BalanceValidate b = Some err ->
  Legacy.ValidateBalance BalanceValidate a b = Some err.
Proof.
  intros Hvalid Hbalance. unfold Legacy.ValidateBalance.
  rewrite Hvalid, Hbalance. reflexivity.
Qed.

Lemma ValidateBalance_legacy_validates_balance_witness :
  TimeRange.Contains (Legacy.timeRange legacyAccount) (730100 * day) = true
  /\ Legacy.ValidateBalance refuseNegative legacyAccount
       (mkBalance (730100 * day) (-1))
     = Some (errorString "negative amount").
Proof.
  split; [reflexivity |].
  apply (ValidateBalance_legacy_validates_balance refuseNegative legacyAccount
           (mkBalance (730100 * day) (-1))); reflexivity.
Defined.

(** ** New *)

Lemma applyOptions_app (pre post : list (option Current.Option))
  (a a1 : Current.Account) :
  Current.applyOptions pre a = (a1, None) ->
  Current.applyOptions (pre ++ post) a = Current.applyOptions post a1.
Proof.
  revert a. induction pre as [| [o |] pre IH]; intros a H; cbn in *.
  - injection H as ->. reflexivity.
  - destruct (o a) as [a' [err |]]; [discriminate | auto].
  - auto.
Qed.

(** An error of the loop is the error of the first option that fails, run on
    the account left by the options before it. *)
Lemma applyOptions_first_failure (os : list (option Current.Option))
  (a a' : Current.Account) (err : error) :
  Current.applyOptions os a = (a', Some err) ->
  exists pre o post a1,
    os = pre ++ Some o :: post
    /\ Current.applyOptions pre a = (a1, None)
    /\ o a1 = (a', Some err).
Proof.
  revert a. induction os as [| [o |] os IH]; intros a H; cbn in H.
  - discriminate.
  - destruct (o a) as [a1 [e |]] eqn:Ho.
    + injection H as -> ->.
      exists [], o, os, a. cbn. auto.
    + destruct (IH _ H) as (pre & o' & post & a2 & -> & Hpre & Ho').
      exists (Some o :: pre), o', post, a2. cbn. rewrite Ho. auto.
  - destruct (IH _ H) as (pre & o' & post & a2 & -> & Hpre & Ho').
    exists (None :: pre), o', post, a2. cbn. auto.
Qed.

(** C4 fails as stated: when the assembled account does not validate, [New]
    returns the FieldError together with the account, not in place of it. *)
Lemma New_invalid_counterexample :
  Current.New "" "EUR" (730000 * day) []
  = (Some (Current.mkAccount ""
             (mkTimeRange {| Time := 730000 * day; Valid := true |}
                          NullTime.zero)
             "EUR"),
     Some (FieldError [EmptyNameError]))
  /\ fst (Current.New "" "EUR" (730000 * day) []) <> None.
Proof. split; [reflexivity | discriminate]. Qed.

(** C4, amended.  [New] applies the start through the start setter and
    returns its error alone when it fails; it then applies the options in the
    order given, and the first one that fails ends the construction with its
    own error and no account; it then runs [Validate], and returns the
    assembled account together with the FieldError when there is one, and
    alone otherwise. *)
Theorem New_outcome (name : string) (code : currency.Code)
  (opened : time.Time) (os : list (option Current.Option)) :
  (forall err,
      TimeRange.SetStart opened TimeRange.zero = Err err ->
      Current.New name code opened os = (None, Some err))
  /\ (forall r pre o post a1 a2 err,
         TimeRange.SetStart opened TimeRange.zero = Ok r ->
         os = pre ++ Some o :: post ->
         Current.applyOptions pre (Current.mkAccount name r code)
         = (a1, None) ->
         o a1 = (a2, Some err) ->
         Current.New name code opened os = (None, Some err))
  /\ (forall r a,
         TimeRange.SetStart opened TimeRange.zero = Ok r ->
         Current.applyOptions os (Current.mkAccount name r code)
         = (a, None) ->
         Current.New name code opened os
         = (Some a, option_map FieldError (Current.Validate a))).
Proof.
  unfold Current.New. repeat split.
  - intros err ->. reflexivity.
  - intros r pre o post a1 a2 err -> -> Hpre Ho.
    rewrite (applyOptions_app _ (Some o :: post) _ _ Hpre). cbn.
    rewrite Ho. reflexivity.
  - intros r a -> ->.
    pose proof (Current_Validate_cases a) as Hv.
    destruct (Current.Validate a) as [aErr |] eqn:E; [| reflexivity].
    destruct (blankName (Current.Name a)); [| discriminate].
    injection Hv as ->. reflexivity.
Qed.

Lemma New_outcome_witness :
  Current.New "TEST_ACCOUNT" "EUR" (730000 * day)
    [Some (Current.CloseTime (730400 * day)); None;
     Some (Current.CloseTime (729000 * day));
     Some (Current.CloseTime (730500 * day))]
  = (None, Some (errorString DateClosedBeforeDateOpenedError)).
Proof.
  apply (proj1 (proj2 (New_outcome "TEST_ACCOUNT" "EUR" (730000 * day) _))
           (mkTimeRange {| Time := 730000 * day; Valid := true |}
                        NullTime.zero)
           [Some (Current.CloseTime (730400 * day)); None]
           (Current.CloseTime (729000 * day))
           [Some (Current.CloseTime (730500 * day))]
           (Current.mkAccount "TEST_ACCOUNT"
              (mkTimeRange {| Time := 730000 * day; Valid := true |}
                           {| Time := 730400 * day; Valid := true |})
              "EUR")
           (Current.mkAccount "TEST_ACCOUNT"
              (mkTimeRange {| Time := 730000 * day; Valid := true |}
                           {| Time := 730400 * day; Valid := true |})
              "EUR"));
    reflexivity.
Defined.

(** ** MarshalJSON and UnmarshalJSON *)

Lemma TimeRange_Equal_refl (r : TimeRange) : TimeRange.Equal r r = true.
Proof. unfold TimeRange.Equal. rewrite !NullTime_Equal_refl. reflexivity. Qed.







(** ** Accounts built by New *)





(** ** The legacy validator on the accounts of its tests *)

Example Validate_legacy_zero_account :
  Legacy.Validate Legacy.zero = Some [EmptyNameError; ZeroDateOpenedError].
Proof. reflexivity. Qed.

Example Validate_legacy_name_only :
  Legacy.Validate (Legacy.mkAccount "TEST_ACCOUNT" TimeRange.zero)
  = Some [ZeroDateOpenedError].
Proof. reflexivity. Qed.

Example Validate_legacy_start_only :
  Legacy.Validate
    (Legacy.mkAccount ""
       (mkTimeRange {| Time := 730000 * day; Valid := true |} NullTime.zero))
  = Some [EmptyNameError].
Proof. reflexivity. Qed.

Example Validate_legacy_zero_valid_end :
  Legacy.Validate
    (Legacy.mkAccount "TEST_ACCOUNT"
       (mkTimeRange NullTime.zero {| Time := time.zero; Valid := true |}))
  = Some [ZeroDateOpenedError; ZeroValidDateClosedError].
Proof. reflexivity. Qed.

Example Validate_legacy_closed_before_opened :
  Legacy.Validate
    (Legacy.mkAccount "TEST_ACCOUNT"
       (mkTimeRange {| Time := 730000 * day; Valid := true |}
                    {| Time := 729635 * day; Valid := true |}))
  = Some [DateClosedBeforeDateOpenedError].
Proof. reflexivity. Qed.

Example Validate_legacy_test_account :
  Legacy.Validate legacyAccount = None.
Proof. reflexivity. Qed.

Example TrimSpace_inner_space_kept :
  strings.TrimSpace "  Test Account   " = "Test Account".
Proof. reflexivity. Qed.

Example blankName_spaces : blankName "    " = true.
Proof. reflexivity. Qed.

(** The legacy containment test, once the Account and the Balance have both
    passed their own validation. *)
Lemma ValidateBalance_legacy_valid_balance
  (BalanceValidate : Balance -> option error)
  (a : Legacy.Account) (b : Balance) :
  Legacy.Validate a = None ->
  BalanceValidate b = None ->
  Legacy.ValidateBalance BalanceValidate a b
  = if negb (TimeRange.Contains (Legacy.timeRange a) (Date b))
       && (negb (Valid (Legacy.End a))
           || negb (time.Equal (Time (Legacy.End a)) (Date b)))
    then Some (DateOutOfAccountTimeRange (Date b) (Legacy.timeRange a))
    else None.
Proof.
  intros Ha Hb. unfold Legacy.ValidateBalance. rewrite Ha, Hb. reflexivity.
Qed.

(** ** The legacy constructor and round trip *)

(** The legacy [New] hands back the account it built also when the account
    does not validate, as its test reads the name and the start in that case. *)
Example New_legacy_returns_account :
  Legacy.New "TEST_ACCOUNT_WITH_ACCOUNT_ERROR" (730000 * day)
    {| Time := 729999 * day; Valid := true |}
  = (Legacy.mkAccount "TEST_ACCOUNT_WITH_ACCOUNT_ERROR"
       (mkTimeRange {| Time := 730000 * day; Valid := true |}
                    {| Time := 729999 * day; Valid := true |}),
     Some (FieldError [DateClosedBeforeDateOpenedError])).
Proof. reflexivity. Qed.


(** * Further properties of the code *)

(** ** NullTime.Equal and NullTime.EqualTime *)

Lemma NullTime_Equal_eq (a b : NullTime) : NullTime.Equal a b = true <-> a = b.
Proof.
  destruct a as [ta va], b as [tb vb]. unfold NullTime.Equal. cbn. split.
  - destruct (Bool.eqb va vb) eqn:Hv; [| discriminate].
    destruct (time.Equal ta tb) eqn:Ht; [| discriminate]. intros _.
    apply Bool.eqb_prop in Hv. apply time_Equal_iff in Ht. congruence.
  - intros H. injection H as -> ->.
    rewrite Bool.eqb_reflx, time_Equal_refl. reflexivity.
Qed.

(** X1. [EqualTime nt t] is [Equal] against the valid NullTime wrapping [t]:
    it holds exactly when [nt] is valid and denotes the instant [t], and
    never for an invalid [nt], not even the zero NullTime against the zero
    time. *)
Theorem EqualTime_is_Equal_to_valid (nt : NullTime) (t : time.Time) :
  NullTime.EqualTime nt t = NullTime.Equal nt {| Time := t; Valid := true |}
  /\ (NullTime.EqualTime nt t = true
      <-> Valid nt = true /\ time.Equal (Time nt) t = true)
  /\ NullTime.EqualTime NullTime.zero time.zero = false.
Proof.
  unfold NullTime.EqualTime, NullTime.Equal. cbn.
  destruct (Valid nt), (time.Equal (Time nt) t); cbn; repeat split;
    try reflexivity; try discriminate; intros [H1 H2]; discriminate.
Qed.

(** X2. [NullTime.Equal] is an equivalence: reflexive, symmetric and
    transitive. *)
Theorem NullTime_Equal_equivalence :
  (forall a, NullTime.Equal a a = true)
  /\ (forall a b, NullTime.Equal a b = NullTime.Equal b a)
  /\ (forall a b c,
         NullTime.Equal a b = true -> NullTime.Equal b c = true ->
         NullTime.Equal a c = true).
Proof.
  repeat split.
  - apply NullTime_Equal_refl.
  - intros a b. unfold NullTime.Equal, time.Equal.
    rewrite (Z.eqb_sym (Time a) (Time b)).
    destruct (Valid a), (Valid b); reflexivity.
  - intros a b c Hab Hbc.
    apply NullTime_Equal_eq in Hab, Hbc. subst. apply NullTime_Equal_refl.
Qed.

(** ** stringSlicesMatch *)

Lemma stringSlicesMatchFrom_spec (fuel i : nat) (array1 array2 : list string) :
  (fuel + i = List.length array1)%nat ->
  (stringSlicesMatchFrom fuel i array1 array2 = true
   <-> forall j, (i <= j < List.length array1)%nat ->
                 nth j array1 EmptyString = nth j array2 EmptyString).
Proof.
  revert i. induction fuel as [| fuel IH]; intros i Hlen;
    cbn [stringSlicesMatchFrom].
  - split; [| reflexivity]. intros _ j Hj. cbn in Hlen. lia.
  - assert (Hi : (i <? List.length array1)%nat = true)
      by (apply Nat.ltb_lt; lia).
    rewrite Hi.
    destruct (String.eqb (nth i array1 EmptyString)
                         (nth i array2 EmptyString)) eqn:He; cbn [negb].
    + apply String.eqb_eq in He. rewrite (IH (S i)) by lia. split.
      * intros H j Hj. destruct (Nat.eq_dec j i) as [-> | Hne];
          [exact He | apply H; lia].
      * intros H j Hj. apply H. lia.
    + apply String.eqb_neq in He. split; [discriminate |].
      intros H. exfalso. apply He, H. lia.
Qed.

(** X3. [stringSlicesMatch] decides equality of two slices of strings: it
    returns true exactly when both hold the same strings in the same order. *)
Theorem stringSlicesMatch_iff_eq (array1 array2 : list string) :
  stringSlicesMatch array1 array2 = true <-> array1 = array2.
Proof.
  unfold stringSlicesMatch.
  destruct (List.length array1 =? List.length array2)%nat eqn:Hlen; cbn.
  - apply Nat.eqb_eq in Hlen.
    rewrite (stringSlicesMatchFrom_spec _ 0 array1 array2) by lia. split.
    + intros H. apply (nth_ext _ _ EmptyString EmptyString Hlen).
      intros n Hn. apply H. lia.
    + intros ->. reflexivity.
  - apply Nat.eqb_neq in Hlen. split; [discriminate |].
    intros ->. contradiction.
Qed.

(** ** The legacy constructor, reader and writer *)

Lemma Legacy_Validate_not_empty (a : Legacy.Account) (l : list string) :
  Legacy.Validate a = Some l -> (0 <? List.length l)%nat = true.
Proof.
  rewrite Legacy_Validate_cases.
  destruct (legacyDescriptions a); [discriminate |].
  intros H. injection H as <-. reflexivity.
Qed.

Lemma Legacy_New_unfold (name : string) (opened : time.Time)
  (closed : NullTime) :
  Legacy.New name opened closed
  = (Legacy.mkAccount name
       (mkTimeRange {| Time := opened; Valid := true |} closed),
     option_map FieldError
       (Legacy.Validate
          (Legacy.mkAccount name
             (mkTimeRange {| Time := opened; Valid := true |} closed)))).
Proof.
  unfold Legacy.New.
  destruct (Legacy.Validate _) as [l |] eqn:Hv; [| reflexivity].
  rewrite (Legacy_Validate_not_empty _ _ Hv). reflexivity.
Qed.

(** X4. The legacy [New] always hands back the account made of its
    arguments, with a valid start, and it reports no error exactly when the
    name is not blank, the opening time is not zero, the closing time is not
    a valid zero time and the range itself validates. *)
Theorem New_legacy_outcome (name : string) (opened : time.Time)
  (closed : NullTime) :
  let a := fst (Legacy.New name opened closed) in
  Legacy.Name a = name
  /\ Start (Legacy.timeRange a) = {| Time := opened; Valid := true |}
  /\ Legacy.End a = closed
  /\ snd (Legacy.New name opened closed)
     = option_map FieldError (Legacy.Validate a)
  /\ (snd (Legacy.New name opened closed) = None
      <-> blankName name = false
          /\ time.IsZero opened = false
          /\ Valid closed && time.IsZero (Time closed) = false
          /\ TimeRange.Validate (Legacy.timeRange a) = None).
Proof.
  cbv zeta. rewrite Legacy_New_unfold. cbn [fst snd].
  do 4 (split; [reflexivity |]).
  rewrite Legacy_Validate_cases. unfold legacyDescriptions.
  cbn [Legacy.Name Legacy.timeRange Legacy.Start Legacy.End Start End
       Time Valid].
  destruct (blankName name), (time.IsZero opened),
    (Valid closed && time.IsZero (Time closed)),
    (TimeRange.Validate _); cbn; split; intros H;
    try discriminate; try (decompose [and] H; discriminate);
    repeat split; reflexivity.
Qed.





(** ** Equal *)

Lemma TimeRange_Equal_eq (r r2 : TimeRange) :
  TimeRange.Equal r r2 = true <-> r = r2.
Proof.
  destruct r as [s e], r2 as [s2 e2]. unfold TimeRange.Equal. cbn.
  rewrite andb_true_iff, !NullTime_Equal_eq. split.
  - intros [-> ->]. reflexivity.
  - intros H. injection H as -> ->. auto.
Qed.

(** X8. The currency-aware [Equal] compares the names and the ranges and
    nothing else: two accounts are [Equal] exactly when their names are the
    same string and their ranges are [Equal], so accounts that differ only in
    their currency code are [Equal]; and [Equal] is symmetric. *)
Theorem Equal_ignores_currency (a b : Current.Account) :
  (Current.Equal a b = true
   <-> Current.Name a = Current.Name b
       /\ TimeRange.Equal (Current.timeRange a) (Current.timeRange b) = true)
  /\ (forall code : currency.Code,
         Current.Equal a
           (Current.mkAccount (Current.Name a) (Current.timeRange a) code)
         = true)
  /\ Current.Equal a b = Current.Equal b a.
Proof.
  unfold Current.Equal. repeat split.
  - destruct (String.eqb_spec (Current.Name a) (Current.Name b));
      [assumption | discriminate].
  - destruct (String.eqb (Current.Name a) (Current.Name b));
      [| discriminate].
    destruct (TimeRange.Equal _ _); [reflexivity | discriminate].
  - intros [-> ->]. rewrite String.eqb_refl. reflexivity.
  - intros code. cbn.
    rewrite String.eqb_refl, TimeRange_Equal_refl. reflexivity.
  - rewrite (String.eqb_sym (Current.Name a) (Current.Name b)).
    destruct (TimeRange.Equal (Current.timeRange a) (Current.timeRange b))
      eqn:Hab.
    + apply TimeRange_Equal_eq in Hab. rewrite Hab, TimeRange_Equal_refl.
      reflexivity.
    + destruct (TimeRange.Equal (Current.timeRange b) (Current.timeRange a))
        eqn:Hba; [| reflexivity].
      apply TimeRange_Equal_eq in Hba.
      rewrite Hba, TimeRange_Equal_refl in Hab. discriminate.
Qed.

(** X9. The legacy [Equal] is an equivalence on accounts: reflexive,
    symmetric and transitive. *)
Theorem Equal_legacy_equivalence :
  (forall a, Legacy.Equal a a = true)
  /\ (forall a b, Legacy.Equal a b = true -> Legacy.Equal b a = true)
  /\ (forall a b c,
         Legacy.Equal a b = true -> Legacy.Equal b c = true ->
         Legacy.Equal a c = true).
Proof.
  assert (Hiff : forall a b,
             Legacy.Equal a b = true
             <-> Legacy.Name a = Legacy.Name b
                 /\ Legacy.timeRange a = Legacy.timeRange b).
  { intros a b. unfold Legacy.Equal.
    destruct (String.eqb_spec (Legacy.Name a) (Legacy.Name b)) as [Hn | Hn];
      cbn.
    - destruct (TimeRange.Equal _ _) eqn:Hr; cbn.
      + apply TimeRange_Equal_eq in Hr. tauto.
      + split; [discriminate |]. intros [_ H].
        apply TimeRange_Equal_eq in H. congruence.
    - split; [discriminate | tauto]. }
  repeat split.
  - intros a. apply Hiff. auto.
  - intros a b H. apply Hiff in H as [Hn Hr]. apply Hiff. auto.
  - intros a b c Hab Hbc. apply Hiff in Hab as [? ?], Hbc as [? ?].
    apply Hiff. split; congruence.
Qed.

(** ** New and its options *)

Lemma applyOptions_nonNil (os : list (option Current.Option))
  (a : Current.Account) :
  Current.applyOptions (nonNil os) a = Current.applyOptions os a.
Proof.
  revert a. induction os as [| [o |] os IH]; intros a; cbn.
  - reflexivity.
  - destruct (o a) as [a' [err |]]; [reflexivity | apply IH].
  - apply IH.
Qed.

(** X10. Nil options do not count: [New] returns the same account and the
    same error with them as without them. *)
Theorem New_skips_nil_options (name : string) (code : currency.Code)
  (opened : time.Time) (os : list (option Current.Option)) :
  Current.New name code opened os = Current.New name code opened (nonNil os).
Proof.
  unfold Current.New.
  destruct (TimeRange.SetStart opened TimeRange.zero); [| reflexivity].
  rewrite applyOptions_nonNil. reflexivity.
Qed.

(** X11. The four outcomes of [New]: it never returns neither an account nor
    an error; an account returned without an error passes [Validate]; an
    account returned with an error has a blank name and the error is the
    FieldError holding EmptyNameError alone. *)
Theorem New_outcomes (name : string) (code : currency.Code)
  (opened : time.Time) (os : list (option Current.Option)) :
  match Current.New name code opened os with
  | (None, None) => False
  | (None, Some _) => True
  | (Some a, None) => Current.Validate a = None
  | (Some a, Some err) =>
      blankName (Current.Name a) = true
      /\ err = FieldError [EmptyNameError]
  end.
Proof.
  unfold Current.New.
  destruct (TimeRange.SetStart opened TimeRange.zero) as [r | e]; [| exact I].
  destruct (Current.applyOptions os _) as [a [e |]]; [exact I |].
  rewrite Current_Validate_cases.
  destruct (blankName (Current.Name a)) eqn:Hb; cbn; auto.
  rewrite Current_Validate_cases, Hb. reflexivity.
Qed.

(** ** ValidateBalance: when a balance is accepted *)

(** X12. The currency-aware [ValidateBalance] accepts a balance exactly when
    the account passes [Validate] and either the range contains the date of
    the balance or the account has a valid end at that very date; any error
    it returns is the FieldError of the account or the out-of-range error
    carrying the date of the balance and the range of the account. *)
Theorem ValidateBalance_accepts_iff (a : Current.Account) (b : Balance) :
  (Current.ValidateBalance a b = None
   <-> Current.Validate a = None
       /\ (TimeRange.Contains (Current.timeRange a) (Date b) = true
           \/ (Valid (Current.End a) = true
               /\ time.Equal (Time (Current.End a)) (Date b) = true)))
  /\ (forall err,
         Current.ValidateBalance a b = Some err ->
         err = FieldError [EmptyNameError]
         \/ err = DateOutOfAccountTimeRange (Date b) (Current.timeRange a)).
Proof.
  unfold Current.ValidateBalance. rewrite Current_Validate_cases.
  destruct (blankName (Current.Name a)).
  - split.
    + split; [discriminate | intros [H _]; discriminate].
    + intros err H. injection H as <-. auto.
  - destruct (TimeRange.Contains (Current.timeRange a) (Date b)),
      (Valid (Current.End a)),
      (time.Equal (Time (Current.End a)) (Date b)); cbn; split;
      try (split; [intros _; split; auto | reflexivity]);
      try (split; [discriminate |];
           intros [_ [H | [H1 H2]]]; discriminate);
      try discriminate;
      intros err H; injection H as <-; auto.
Qed.

(** X13. The legacy [ValidateBalance] accepts a balance exactly when the
    account passes [Validate], the balance passes its own validation, and
    either the range contains the date of the balance or the account has a
    valid end at that very date. *)
Theorem ValidateBalance_legacy_accepts_iff
  (BalanceValidate : Balance -> option error)
  (a : Legacy.Account) (b : Balance) :
  Legacy.ValidateBalance BalanceValidate a b = None
  <-> Legacy.Validate a = None
      /\ BalanceValidate b = None
      /\ (TimeRange.Contains (Legacy.timeRange a) (Date b) = true
          \/ (Valid (Legacy.End a) = true
              /\ time.Equal (Time (Legacy.End a)) (Date b) = true)).
Proof.
  unfold Legacy.ValidateBalance.
  destruct (Legacy.Validate a) as [l |].
  - split; [discriminate | intros [H _]; discriminate].
  - destruct (BalanceValidate b) as [e |].
    + split; [discriminate | intros (_ & H & _); discriminate].
    + destruct (TimeRange.Contains (Legacy.timeRange a) (Date b)),
        (Valid (Legacy.End a)),
        (time.Equal (Time (Legacy.End a)) (Date b)); cbn;
        (split; [intros H; try discriminate; repeat split; auto
                | intros (_ & _ & [H | [H1 H2]]);
                  try reflexivity; discriminate]).
Qed.

(** ** UnmarshalJSON: what is written, and when *)




(** ** Accounts that New returns *)

(** X16. An account that [New] returns when it is given no option carries
    the name, the currency code and the start it was given, has a valid start
    and is open. *)
Theorem New_without_options (name : string) (code : currency.Code)
  (opened : time.Time) (a : Current.Account) (err : option error) :
  Current.New name code opened [] = (Some a, err) ->
  Current.Name a = name
  /\ Current.CurrencyCode a = code
  /\ Current.Start a = opened
  /\ Valid (Start (Current.timeRange a)) = true
  /\ Current.IsOpen a = true.
Proof.
  unfold Current.New, TimeRange.SetStart.
  destruct (time.IsZero opened); [discriminate |].
  cbn [Current.applyOptions]. intros H.
  assert (Ha : a = Current.mkAccount name
                     (mkTimeRange {| Time := opened; Valid := true |}
                                  (End TimeRange.zero))
                     code).
  { destruct (Current.Validate _) as [l |];
      [destruct (0 <? Datatypes.length l)%nat |];
      injection H as <- _; reflexivity. }
  subst a. repeat split.
Qed.

Lemma New_without_options_witness :
  Current.Name openAccount = "Test Account"
  /\ Current.CurrencyCode openAccount = "EUR"
  /\ Current.Start openAccount = 730000 * day
  /\ Valid (Start (Current.timeRange openAccount)) = true
  /\ Current.IsOpen openAccount = true.
Proof.
  apply (New_without_options "Test Account" "EUR" (730000 * day)
           openAccount None).
  reflexivity.
Defined.


(** X17. When the start is accepted and [New] still returns no account, one
    of the options failed: the error is the one returned by the first option
    that fails, run on the account left by the options before it, none of
    which failed. *)
Theorem New_option_failure (name : string) (code : currency.Code)
  (opened : time.Time) (os : list (option Current.Option))
  (r : TimeRange) (err : error) :
  TimeRange.SetStart opened TimeRange.zero = Ok r ->
  Current.New name code opened os = (None, Some err) ->
  exists pre o post a1 a2,
    os = pre ++ Some o :: post
    /\ Current.applyOptions pre (Current.mkAccount name r code) = (a1, None)
    /\ o a1 = (a2, Some err).
Proof.
  unfold Current.New. intros -> H.
  destruct (Current.applyOptions os _) as [a' [e |]] eqn:Ho.
  - injection H as ->.
    destruct (applyOptions_first_failure _ _ _ _ Ho)
      as (pre & o & post & a1 & Hos & Hpre & Hfail).
    exists pre, o, post, a1, a'. auto.
  - destruct (Current.Validate a') as [l |];
      [destruct (0 <? Datatypes.length l)%nat |]; discriminate.
Qed.

Lemma New_option_failure_witness :
  exists pre o post a1 a2,
    [Some (Current.CloseTime (730400 * day));
     Some (Current.CloseTime time.zero)]
    = pre ++ Some o :: post
    /\ Current.applyOptions pre
         (Current.mkAccount "A"
            (mkTimeRange {| Time := 730000 * day; Valid := true |}
                         NullTime.zero) "EUR")
       = (a1, None)
    /\ o a1 = (a2, Some (errorString ZeroValidDateClosedError)).
Proof.
  apply (New_option_failure "A" "EUR" (730000 * day)
           [Some (Current.CloseTime (730400 * day));
            Some (Current.CloseTime time.zero)]);
    reflexivity.
Defined.

(** ** Instances of the properties above *)

Lemma NullTime_Equal_equivalence_witness :
  NullTime.Equal {| Time := 5; Valid := true |} {| Time := 5; Valid := true |}
  = true.
Proof.
  apply (proj2 (proj2 NullTime_Equal_equivalence)
           {| Time := 5; Valid := true |} {| Time := 5; Valid := true |}
           {| Time := 5; Valid := true |}); reflexivity.
Defined.

Lemma Equal_legacy_equivalence_witness :
  Legacy.Equal legacyAccount legacyAccount = true.
Proof.
  apply (proj1 (proj2 Equal_legacy_equivalence) legacyAccount legacyAccount).
  reflexivity.
Defined.

Lemma ValidateBalance_accepts_iff_witness :
  Current.ValidateBalance closedAccount (mkBalance (730100 * day) 7) = None.
Proof.
  apply (proj1 (ValidateBalance_accepts_iff closedAccount
                  (mkBalance (730100 * day) 7))).
  split; [reflexivity | left; reflexivity].
Defined.

(** ** Names and texts outside ASCII *)

Example blankName_no_break_space :
  blankName (String (ascii_of_nat 194) (String (ascii_of_nat 160) "")) = true.
Proof. reflexivity. Qed.

Example blankName_em_space_and_tab :
  blankName
    (String (ascii_of_nat 226)
       (String (ascii_of_nat 128)
          (String (ascii_of_nat 131) (String (ascii_of_nat 9) ""))))
  = true.
Proof. reflexivity. Qed.

Example blankName_zero_width_space :
  blankName
    (String (ascii_of_nat 226)
       (String (ascii_of_nat 128) (String (ascii_of_nat 139) "")))
  = false.
Proof. reflexivity. Qed.

Example blankName_invalidName : blankName invalidName = false.
Proof. reflexivity. Qed.

Example coerce_invalidName :
  json.coerce invalidName
  = String (ascii_of_nat 239)
      (String (ascii_of_nat 191) (String (ascii_of_nat 189) "")).
Proof. reflexivity. Qed.

Example coerce_keeps_valid_text :
  json.coerce
    (String "A" (String (ascii_of_nat 195) (String (ascii_of_nat 169) "")))
  = String "A" (String (ascii_of_nat 195) (String (ascii_of_nat 169) "")).
Proof. reflexivity. Qed.

Example Marshal_year_10000 :
  Legacy.MarshalJSON json.MarshalLegacy
    (Legacy.mkAccount "TEST_ACCOUNT"
       (mkTimeRange {| Time := 3652059 * day; Valid := true |} NullTime.zero))
  = Err json.yearError.
Proof. reflexivity. Qed.

(** On the instance above, a text is read back member for member as soon as
    the name and the currency code are unchanged by the encoder, that is,
    are valid UTF-8. *)
Lemma UnmarshalCurrent_reads_back (a : Current.Account) :
  json.coerce (Current.Name a) = Current.Name a ->
  json.coerce (Current.currencyCode a) = Current.currencyCode a ->
  json.UnmarshalCurrent
    (Current.mkJSON (Current.Name a) (Current.Start a) (Current.End a)
       (Current.currencyCode a))
  = readBack a.
Proof.
  intros Hn Hc. unfold json.UnmarshalCurrent, readBack.
  cbn [Current.jsonName Current.jsonStart Current.jsonEnd
       Current.jsonCurrency].
  rewrite Hn, Hc. reflexivity.
Qed.
